(** * Ecommerce-API: the route handlers of [app.py] over a relational store

    [app.py] maps fifteen HTTP routes onto three tables ([user],
    [product], [order]) and one association table ([order_product]).
    Each handler is embedded as a function from the store before the
    request to the handler's outcome and the store after it.

    Conventions of the embedding:
    - a table is the list of its rows; [db.session.get(M, id)] is the
      row whose primary key is [id];
    - a handler either returns [(body, status)] or lets an exception
      escape ([Raise]); an escaping exception leaves the store as it was,
      the transaction never having been committed;
    - [schema.load(request.json)] belongs to marshmallow: a handler
      receives its result, the loaded dictionary or the messages of the
      [ValidationError];
    - [db.session.commit()] sends the pending statement to the store,
      which checks what the table declarations of [app.py] declare
      (lines 47-91): primary keys, foreign keys, [unique=True] and
      non-nullable columns. A refused statement raises a database error
      that no handler catches. *)

From Stdlib Require Import ZArith QArith.
From stdpp Require Import base decidable option list numbers strings.

Local Open Scope Z_scope.

(** ** Rows *)

(** [datetime.date] *)
Record date := Date { year : Z; month : Z; day : Z }.

Module User.
Record t := mk { id : Z; name : string; address : string; email : string }.
End User.

Module Product.
(** [price] is the number the body deserialised to; the rounding of the
    [Float] column is not modelled. *)
Record t := mk { id : Z; product_name : string; price : Q }.
End Product.

Module Order.
Record t := mk { id : Z; order_date : date; user_id : Z }.
End Order.

(** ** Results of [schema.load]

    The auto-generated schemas accept the primary key as an optional
    field; no handler reads it. *)

Module UserData.
Record t := mk { id : option Z; name : string; address : string; email : string }.
End UserData.

Module ProductData.
Record t := mk { id : option Z; product_name : string; price : Q }.
End ProductData.

Module OrderData.
Record t := mk { id : option Z; order_date : date; user_id : Z }.
End OrderData.

Inductive load_result (A : Type) : Type :=
| Loaded (data : A)
| ValidationError (messages : list (string * string)).
Arguments Loaded {A} data.
Arguments ValidationError {A} messages.

(** ** Responses *)

(** The fixed JSON objects the handlers answer with, one constructor per
    literal of [app.py]. *)
Inductive message : Type :=
| Invalid_user_id
| User_not_found
| successfully_deleted_user (id : Z)
| Invalid_product_id
| Product_not_found
| successfully_deleted_product (id : Z)
| Order_or_Product_not_found
| Product_already_in_order
| Successfully_added_to_order (product_name : string)
| Product_not_found_in_order
| successfully_deleted (product : Product.t)
| Order_not_found.

Inductive body : Type :=
| users_json (users : list User.t)
| user_json (user : option User.t)
| products_json (products : list Product.t)
| product_json (product : option Product.t)
| order_json (order : Order.t)
| orders_json (orders : list Order.t)
| messages_json (messages : list (string * string))
| message_json (m : message).

Inductive exn : Type :=
| AttributeError   (* attribute access on [None] *)
| DatabaseError.   (* the store refused a statement at commit *)

Inductive outcome : Type :=
| Reply (b : body) (status : Z)
| Raise (e : exn).

(** The error taxonomy of the service. *)
Definition NotFound (r : outcome) : Prop :=
  match r with Reply _ 404 => True | _ => False end.

Definition Conflict (r : outcome) : Prop :=
  r = Reply (message_json Product_already_in_order) 400.

(** ** The store *)

Record db := Db {
  users : list User.t;
  products : list Product.t;
  orders : list Order.t;
  order_product : list (Z * Z);   (* (order_id, product_id) *)
  user_seq : Z;                   (* autoincrement counters *)
  product_seq : Z;
  order_seq : Z
}.

Definition empty : db := Db [] [] [] [] 1 1 1.

Definition with_users (s : db) (l : list User.t) : db :=
  Db l (products s) (orders s) (order_product s)
     (user_seq s) (product_seq s) (order_seq s).

Definition with_products (s : db) (l : list Product.t) : db :=
  Db (users s) l (orders s) (order_product s)
     (user_seq s) (product_seq s) (order_seq s).

Definition with_order_product (s : db) (l : list (Z * Z)) : db :=
  Db (users s) (products s) (orders s) l
     (user_seq s) (product_seq s) (order_seq s).

(** Rows by primary key. *)
Section table.
Context {R : Type} (key : R → Z).

Definition get (k : Z) (rows : list R) : option R :=
  head (filter (λ r, key r = k) rows).

Definition delete_row (k : Z) (rows : list R) : list R :=
  filter (λ r, key r ≠ k) rows.

Definition update_row (k : Z) (f : R → R) (rows : list R) : list R :=
  (λ r, if decide (key r = k) then f r else r) <$> rows.

End table.

(** [order.product]: the products joined to the order through the
    association table, one per association row. *)
Definition Order_product (s : db) (order : Order.t) : list Product.t :=
  row ← order_product s;
  if decide (row.1 = Order.id order)
  then filter (λ p, Product.id p = row.2) (products s)
  else [].

(** [product in order.product]. The session holds one object per primary
    key, so Python's identity test on mapped objects is a test on the key;
    [None] is in no collection. *)
Definition product_in (product : option Product.t) (collection : list Product.t) : bool :=
  match product with
  | Some p => bool_decide (Product.id p ∈ Product.id <$> collection)
  | None => false
  end.

(** ** Statements and the constraints the store checks

    [None] is a refused statement. The comparison of the unique index on
    [user.email] is the column's collation, which [app.py] leaves to the
    server: the development is parametric in it. *)
Section app.
Context (collate : string → string → bool).

Definition email_taken (e : string) (rows : list User.t) : bool :=
  existsb (λ u, collate (User.email u) e) rows.

(** INSERT INTO user: [email] is unique (line 61). *)
Definition insert_user (d : UserData.t) (s : db) : option (User.t * db) :=
  let new_user :=
    User.mk (user_seq s) (UserData.name d) (UserData.address d) (UserData.email d) in
  if email_taken (UserData.email d) (users s) then None
  else Some (new_user,
             Db (users s ++ [new_user]) (products s) (orders s) (order_product s)
                (user_seq s + 1) (product_seq s) (order_seq s)).

(** [user.name = ...; user.email = ...] (lines 166-167). *)
Definition set_name_email (d : UserData.t) (user : User.t) : User.t :=
  User.mk (User.id user) (UserData.name d) (User.address user) (UserData.email d).

(** UPDATE user SET name, email WHERE id: [email] stays unique. *)
Definition update_user_row (id : Z) (d : UserData.t) (s : db) : option db :=
  if email_taken (UserData.email d) (delete_row User.id id (users s)) then None
  else Some (with_users s (update_row User.id id (set_name_email d) (users s))).

(** [db.session.delete(user)]: the relationship [User.order] has no delete
    cascade, and [order.user_id] is a non-nullable foreign key (line 83):
    a user who still owns an order cannot be deleted. *)
Definition delete_user_row (id : Z) (s : db) : option db :=
  if bool_decide (Exists (λ o, Order.user_id o = id) (orders s)) then None
  else Some (with_users s (delete_row User.id id (users s))).

(** INSERT INTO product. *)
Definition insert_product (d : ProductData.t) (s : db) : Product.t * db :=
  let new_product :=
    Product.mk (product_seq s) (ProductData.product_name d) (ProductData.price d) in
  (new_product,
   Db (users s) (products s ++ [new_product]) (orders s) (order_product s)
      (user_seq s) (product_seq s + 1) (order_seq s)).

(** [product.product_name = ...; product.price = ...] (lines 232-233). *)
Definition set_name_price (d : ProductData.t) (product : Product.t) : Product.t :=
  Product.mk (Product.id product) (ProductData.product_name d) (ProductData.price d).

Definition update_product_row (id : Z) (d : ProductData.t) (s : db) : db :=
  with_products s (update_row Product.id id (set_name_price d) (products s)).

(** [db.session.delete(product)]: the rows of the secondary table of
    [Product.order] go first (lines 74-76), then the product row. *)
Definition delete_product_row (id : Z) (s : db) : db :=
  Db (users s) (delete_row Product.id id (products s)) (orders s)
     (filter (λ row, row.2 ≠ id) (order_product s))
     (user_seq s) (product_seq s) (order_seq s).

(** INSERT INTO order: [user_id] references [user.id] (line 83). *)
Definition insert_order (d : OrderData.t) (s : db) : option (Order.t * db) :=
  let new_order :=
    Order.mk (order_seq s) (OrderData.order_date d) (OrderData.user_id d) in
  match get User.id (OrderData.user_id d) (users s) with
  | None => None
  | Some _ =>
      Some (new_order,
            Db (users s) (products s) (orders s ++ [new_order]) (order_product s)
               (user_seq s) (product_seq s) (order_seq s + 1))
  end.

(** INSERT INTO order_product: the pair is the primary key and each
    column references its table (lines 47-52). *)
Definition insert_order_product (order_id product_id : Z) (s : db) : option db :=
  if bool_decide ((order_id, product_id) ∈ order_product s) then None
  else match get Order.id order_id (orders s), get Product.id product_id (products s) with
       | Some _, Some _ =>
           Some (with_order_product s (order_product s ++ [(order_id, product_id)]))
       | _, _ => None
       end.

(** ** The route handlers *)

(** GET /users *)
Definition get_users (s : db) : outcome * db :=
  (Reply (users_json (users s)) 200, s).

(** GET /users/<id> *)
Definition get_user (id : Z) (s : db) : outcome * db :=
  let user := get User.id id (users s) in
  (Reply (user_json user) 200, s).

(** POST /users *)
Definition create_user (json : load_result UserData.t) (s : db) : outcome * db :=
  match json with
  | ValidationError messages => (Reply (messages_json messages) 400, s)
  | Loaded user_data =>
      match insert_user user_data s with
      | Some (new_user, s') => (Reply (user_json (Some new_user)) 201, s')
      | None => (Raise DatabaseError, s)
      end
  end.

(** PUT /users/<id> *)
Definition update_user (id : Z) (json : load_result UserData.t) (s : db) : outcome * db :=
  match get User.id id (users s) with
  | None => (Reply (message_json Invalid_user_id) 404, s)
  | Some user =>
      match json with
      | ValidationError messages => (Reply (messages_json messages) 400, s)
      | Loaded user_data =>
          match update_user_row id user_data s with
          | Some s' => (Reply (user_json (Some (set_name_email user_data user))) 200, s')
          | None => (Raise DatabaseError, s)
          end
      end
  end.

(** DELETE /users/<id> *)
Definition delete_user (id : Z) (s : db) : outcome * db :=
  match get User.id id (users s) with
  | None => (Reply (message_json User_not_found) 404, s)
  | Some user =>
      match delete_user_row id s with
      | Some s' => (Reply (message_json (successfully_deleted_user id)) 200, s')
      | None => (Raise DatabaseError, s)
      end
  end.

(** GET /products *)
Definition get_products (s : db) : outcome * db :=
  (Reply (products_json (products s)) 200, s).

(** GET /products/<id> *)
Definition get_product (id : Z) (s : db) : outcome * db :=
  let product := get Product.id id (products s) in
  (Reply (product_json product) 200, s).

(** POST /products *)
Definition create_product (json : load_result ProductData.t) (s : db) : outcome * db :=
  match json with
  | ValidationError messages => (Reply (messages_json messages) 400, s)
  | Loaded product_data =>
      let '(new_product, s') := insert_product product_data s in
      (Reply (product_json (Some new_product)) 201, s')
  end.

(** PUT /products/<id> *)
Definition update_product (id : Z) (json : load_result ProductData.t) (s : db) : outcome * db :=
  match get Product.id id (products s) with
  | None => (Reply (message_json Invalid_product_id) 404, s)
  | Some product =>
      match json with
      | ValidationError messages => (Reply (messages_json messages) 400, s)
      | Loaded product_data =>
          (Reply (product_json (Some (set_name_price product_data product))) 200,
           update_product_row id product_data s)
      end
  end.

(** DELETE /products/<id> *)
Definition delete_product (id : Z) (s : db) : outcome * db :=
  match get Product.id id (products s) with
  | None => (Reply (message_json Product_not_found) 404, s)
  | Some product =>
      (Reply (message_json (successfully_deleted_product id)) 200,
       delete_product_row id s)
  end.

(** POST /orders *)
Definition new_order (json : load_result OrderData.t) (s : db) : outcome * db :=
  match json with
  | ValidationError messages => (Reply (messages_json messages) 400, s)
  | Loaded order_data =>
      match insert_order order_data s with
      | Some (new_order, s') => (Reply (order_json new_order) 201, s')
      | None => (Raise DatabaseError, s)
      end
  end.

(** PUT /orders/<order_id>/add_product/<product_id> *)
Definition add_product (order_id product_id : Z) (s : db) : outcome * db :=
  let order := get Order.id order_id (orders s) in
  let product := get Product.id product_id (products s) in
  match order, product with
  | Some order, Some product =>
      if product_in (Some product) (Order_product s order)
      then (Reply (message_json Product_already_in_order) 400, s)
      else match insert_order_product (Order.id order) (Product.id product) s with
           | Some s' =>
               (Reply (message_json
                         (Successfully_added_to_order (Product.product_name product))) 200,
                s')
           | None => (Raise DatabaseError, s)
           end
  | _, _ => (Reply (message_json Order_or_Product_not_found) 404, s)
  end.

(** DELETE /orders/<order_id>/remove_product/<product_id>. Line 299 reads
    [order.product] whatever [order] is. *)
Definition remove_product (order_id product_id : Z) (s : db) : outcome * db :=
  let order := get Order.id order_id (orders s) in
  let product := get Product.id product_id (products s) in
  match order with
  | None => (Raise AttributeError, s)
  | Some order =>
      if negb (product_in product (Order_product s order))
      then (Reply (message_json Product_not_found_in_order) 404, s)
      else match product with
           | Some product =>
               (Reply (message_json (successfully_deleted product)) 200,
                delete_product_row (Product.id product) s)
           | None => (Raise AttributeError, s)   (* not reached: see [product_in] *)
           end
  end.

(** GET /orders/user/<user_id> *)
Definition get_user_orders (user_id : Z) (s : db) : outcome * db :=
  let orders := filter (λ o, Order.user_id o = user_id) (orders s) in
  (Reply (orders_json orders) 200, s).

(** GET /orders/<order_id>/products *)
Definition get_order_products (order_id : Z) (s : db) : outcome * db :=
  match get Order.id order_id (orders s) with
  | None => (Reply (message_json Order_not_found) 404, s)
  | Some order => (Reply (products_json (Order_product s order)) 200, s)
  end.

(** ** The service: routes and runs *)

Inductive request : Type :=
| GET_users
| GET_user (id : Z)
| POST_users (json : load_result UserData.t)
| PUT_user (id : Z) (json : load_result UserData.t)
| DELETE_user (id : Z)
| GET_products
| GET_product (id : Z)
| POST_products (json : load_result ProductData.t)
| PUT_product (id : Z) (json : load_result ProductData.t)
| DELETE_product (id : Z)
| POST_orders (json : load_result OrderData.t)
| PUT_add_product (order_id product_id : Z)
| DELETE_remove_product (order_id product_id : Z)
| GET_user_orders (user_id : Z)
| GET_order_products (order_id : Z).

Definition route (r : request) : db → outcome * db :=
  match r with
  | GET_users => get_users
  | GET_user id => get_user id
  | POST_users json => create_user json
  | PUT_user id json => update_user id json
  | DELETE_user id => delete_user id
  | GET_products => get_products
  | GET_product id => get_product id
  | POST_products json => create_product json
  | PUT_product id json => update_product id json
  | DELETE_product id => delete_product id
  | POST_orders json => new_order json
  | PUT_add_product order_id product_id => add_product order_id product_id
  | DELETE_remove_product order_id product_id => remove_product order_id product_id
  | GET_user_orders user_id => get_user_orders user_id
  | GET_order_products order_id => get_order_products order_id
  end.

(** The store after serving the requests in turn. *)
Definition serve (s : db) (requests : list request) : db :=
  foldl (λ s r, (route r s).2) s requests.

End app.

(** ** Properties stated about the store *)

(** Every order references an existing user. *)
Definition orders_reference_users (s : db) : Prop :=
  ∀ o, o ∈ orders s → ∃ u, u ∈ users s ∧ User.id u = Order.user_id o.

(** Every association row links an existing order and an existing product. *)
Definition associations_linked (s : db) : Prop :=
  ∀ order_id product_id, (order_id, product_id) ∈ order_product s →
    (∃ o, o ∈ orders s ∧ Order.id o = order_id) ∧
    (∃ p, p ∈ products s ∧ Product.id p = product_id).

Definition consistent (s : db) : Prop :=
  orders_reference_users s ∧ associations_linked s ∧ NoDup (order_product s).

(** The number of association rows of a pair. *)
Definition association_count (order_id product_id : Z) (s : db) : nat :=
  length (filter (λ row, row = (order_id, product_id)) (order_product s)).

Definition nonnegative_prices (s : db) : Prop :=
  ∀ p, p ∈ products s → (0 <= Product.price p)%Q.

(** The bodies of a run carry no negative price. *)
Definition supplies_nonnegative_price (r : request) : Prop :=
  match r with
  | POST_products (Loaded d) | PUT_product _ (Loaded d) => (0 <= ProductData.price d)%Q
  | _ => True
  end.

(** Primary keys: no two rows of a table share a key, and the keys in use
    lie below the autoincrement counter. *)
Definition keys_below {R : Type} (key : R → Z) (rows : list R) (seq : Z) : Prop :=
  NoDup (key <$> rows) ∧ ∀ r, r ∈ rows → key r < seq.

Definition primary_keys (s : db) : Prop :=
  keys_below User.id (users s) (user_seq s) ∧
  keys_below Product.id (products s) (product_seq s) ∧
  keys_below Order.id (orders s) (order_seq s).

(** What a successful PUT /users/<id> does, row by row: the answer is the
    updated user; the row of that id has the supplied name and email and
    its own id and address; every other row, and every other table, is as
    before. *)
Definition replaces_name_email (id : Z) (d : UserData.t) (s : db)
    (r : outcome * db) : Prop :=
  ∃ user, get User.id id (users s) = Some user ∧
    r.1 = Reply (user_json (Some (set_name_email d user))) 200 ∧
    r.2 = with_users s (users r.2) ∧
    length (users r.2) = length (users s) ∧
    ∀ (i : nat) u, users s !! i = Some u →
      ∃ u', users r.2 !! i = Some u' ∧
        User.id u' = User.id u ∧ User.address u' = User.address u ∧
        (User.id u = id →
         User.name u' = UserData.name d ∧ User.email u' = UserData.email d) ∧
        (User.id u ≠ id → u' = u).

(** The handler answered 200 or 201. *)
Definition succeeded (r : outcome) : Prop :=
  match r with Reply _ 200 | Reply _ 201 => True | _ => False end.

(** No two users share an email. *)
Definition distinct_emails (s : db) : Prop :=
  NoDup (User.email <$> users s).

(** What a successful PUT /products/<id> does, row by row. *)
Definition replaces_name_price (id : Z) (d : ProductData.t) (s : db)
    (r : outcome * db) : Prop :=
  ∃ product, get Product.id id (products s) = Some product ∧
    r.1 = Reply (product_json (Some (set_name_price d product))) 200 ∧
    r.2 = with_products s (products r.2) ∧
    length (products r.2) = length (products s) ∧
    ∀ (i : nat) p, products s !! i = Some p →
      ∃ p', products r.2 !! i = Some p' ∧ Product.id p' = Product.id p ∧
        (Product.id p = id →
         Product.product_name p' = ProductData.product_name d ∧
         Product.price p' = ProductData.price d) ∧
        (Product.id p ≠ id → p' = p).

(** ** A small shop, built through the routes

    Two users, two products, one order each; both orders hold the pen. *)

Definition ann : UserData.t := UserData.mk None "Ann" "1 Main St" "ann@example.com".
Definition bob : UserData.t := UserData.mk None "Bob" "2 High St" "bob@example.com".
Definition pen : ProductData.t := ProductData.mk None "pen" (3 # 2).
Definition ink : ProductData.t := ProductData.mk None "ink" (7 # 1).

Definition shop : db :=
  serve String.eqb empty
    [ POST_users (Loaded ann); POST_users (Loaded bob);
      POST_products (Loaded pen); POST_products (Loaded ink);
      POST_orders (Loaded (OrderData.mk None (Date 2024 1 2) 1));
      POST_orders (Loaded (OrderData.mk None (Date 2024 1 3) 2));
      PUT_add_product 1 1; PUT_add_product 2 1 ].

(** Bob asks for Ann's email. *)
Definition bob_as_ann : UserData.t :=
  UserData.mk None "Bob" "2 High St" "ann@example.com".

Definition bob_moves : UserData.t :=
  UserData.mk None "Robert" "anywhere" "robert@example.com".

(** ** Lemmas on tables *)

Section table_lemmas.
Context {R : Type} (key : R → Z).

Lemma get_Some k rows r : get key k rows = Some r → r ∈ rows ∧ key r = k.
Proof.
  unfold get. intros H. apply head_Some_elem_of in H.
  apply list_elem_of_filter in H. tauto.
Qed.

Lemma get_None k rows : get key k rows = None ↔ ∀ r, r ∈ rows → key r ≠ k.
Proof.
  unfold get. rewrite head_None. split.
  - intros E r Hr Hk.
    assert (r ∈ filter (λ r, key r = k) rows) as Hin
      by (apply list_elem_of_filter; auto).
    rewrite E in Hin. by apply not_elem_of_nil in Hin.
  - intros H. destruct (filter (λ r, key r = k) rows) as [|r l] eqn:E; [done|].
    assert (r ∈ filter (λ r, key r = k) rows) as Hin by (rewrite E; left).
    apply list_elem_of_filter in Hin. destruct Hin as [Hk Hr].
    by destruct (H r Hr).
Qed.

Lemma elem_of_delete_row k rows r :
  r ∈ delete_row key k rows ↔ r ∈ rows ∧ key r ≠ k.
Proof. unfold delete_row. rewrite list_elem_of_filter. tauto. Qed.

Lemma elem_of_update_row k f rows r' :
  r' ∈ update_row key k f rows ↔
  ∃ r, r ∈ rows ∧ r' = (if decide (key r = k) then f r else r).
Proof.
  unfold update_row. rewrite list_elem_of_fmap.
  split; intros (r & H1 & H2); eauto.
Qed.

Lemma update_row_keys k f rows :
  (∀ r, key (f r) = key r) → key <$> update_row key k f rows = key <$> rows.
Proof.
  intros Hf. unfold update_row. rewrite <- list_fmap_compose.
  apply list_fmap_ext. intros i r _. simpl. by case_decide.
Qed.

Lemma update_row_key_elem k f rows j :
  (∀ r, key (f r) = key r) →
  (∃ r, r ∈ update_row key k f rows ∧ key r = j) ↔ (∃ r, r ∈ rows ∧ key r = j).
Proof.
  intros Hf. split.
  - intros (r' & Hr' & Hj). apply elem_of_update_row in Hr'.
    destruct Hr' as (r & Hr & ->). exists r. split; [done|].
    case_decide; [by rewrite Hf in Hj | done].
  - intros (r & Hr & Hj).
    exists (if decide (key r = k) then f r else r). split.
    + apply elem_of_update_row. eauto.
    + case_decide; [by rewrite Hf | done].
Qed.

End table_lemmas.

(** Membership in [order.product] is membership of the pair in the
    association table, for a product of the store. *)
Lemma product_in_Order_product s order p :
  p ∈ products s →
  product_in (Some p) (Order_product s order) = true ↔
  (Order.id order, Product.id p) ∈ order_product s.
Proof.
  intros Hp. unfold product_in, Order_product.
  rewrite bool_decide_eq_true, list_elem_of_fmap. split.
  - intros (q & Hid & Hq). apply list_elem_of_bind in Hq.
    destruct Hq as ([o' p'] & Hq & Hrow). simpl in Hq.
    case_decide as Ho; [|by apply not_elem_of_nil in Hq].
    apply list_elem_of_filter in Hq. destruct Hq as [Hq _].
    simpl in Ho. subst o'. by rewrite Hid, Hq.
  - intros Hrow. exists p. split; [done|].
    apply list_elem_of_bind. exists (Order.id order, Product.id p).
    split; [|done]. simpl. rewrite decide_True by done.
    apply list_elem_of_filter. auto.
Qed.

(** ** Statements keep the store consistent *)

Ltac split_consistent :=
  unfold consistent, orders_reference_users, associations_linked;
  split; [|split]; simpl.

Section consistency.
Context (collate : string → string → bool).

Lemma consistent_empty : consistent empty.
Proof.
  split_consistent.
  - intros o Ho. by apply not_elem_of_nil in Ho.
  - intros o p H. by apply not_elem_of_nil in H.
  - constructor.
Qed.

Lemma insert_user_consistent d s new_user s' :
  insert_user collate d s = Some (new_user, s') → consistent s → consistent s'.
Proof.
  unfold insert_user. case_match; [done|]. intros [= _ <-] (Hu & Ha & Hn).
  split_consistent; [|done..].
  intros o Ho. destruct (Hu o Ho) as (u & ? & ?).
  exists u. rewrite elem_of_app. auto.
Qed.

Lemma update_user_row_consistent id d s s' :
  update_user_row collate id d s = Some s' → consistent s → consistent s'.
Proof.
  unfold update_user_row. case_match; [done|]. intros [= <-] (Hu & Ha & Hn).
  split_consistent; [|done..].
  intros o Ho. apply (update_row_key_elem User.id); [done|]. by apply Hu.
Qed.

Lemma delete_user_row_consistent id s s' :
  delete_user_row id s = Some s' → consistent s → consistent s'.
Proof.
  unfold delete_user_row. case_bool_decide as Hex; [done|].
  intros [= <-] (Hu & Ha & Hn).
  split_consistent; [|done..].
  intros o Ho. destruct (Hu o Ho) as (u & Hin & Hid).
  exists u. split; [|done]. apply elem_of_delete_row. split; [done|].
  intros Heq. apply Hex, Exists_exists. exists o. split; [done|]. congruence.
Qed.

Lemma insert_product_consistent d s :
  consistent s → consistent (insert_product d s).2.
Proof.
  intros (Hu & Ha & Hn). split_consistent; [done| |done].
  intros o p H. destruct (Ha o p H) as (Ho & q & ? & ?). split; [done|].
  exists q. rewrite elem_of_app. auto.
Qed.

Lemma update_product_row_consistent id d s :
  consistent s → consistent (update_product_row id d s).
Proof.
  intros (Hu & Ha & Hn). split_consistent; [done| |done].
  intros o p H. destruct (Ha o p H) as (Ho & Hp). split; [done|].
  by apply (update_row_key_elem Product.id).
Qed.

Lemma delete_product_row_consistent id s :
  consistent s → consistent (delete_product_row id s).
Proof.
  intros (Hu & Ha & Hn). split_consistent; [done| |by apply NoDup_filter].
  intros o p H. apply list_elem_of_filter in H. destruct H as [Hne H].
  simpl in Hne. destruct (Ha o p H) as (Ho & q & Hq & Hid). split; [done|].
  exists q. split; [|done]. apply elem_of_delete_row. split; [done|]. congruence.
Qed.

Lemma insert_order_consistent d s new_order s' :
  insert_order d s = Some (new_order, s') → consistent s → consistent s'.
Proof.
  unfold insert_order. destruct (get User.id _ _) as [u|] eqn:Hget; [|done].
  intros [= <- <-] (Hu & Ha & Hn). apply get_Some in Hget.
  split_consistent; [| |done].
  - intros o Ho. apply elem_of_app in Ho. destruct Ho as [Ho|Ho]; [by apply Hu|].
    apply list_elem_of_singleton in Ho. subst o. simpl. exists u. tauto.
  - intros o p H. destruct (Ha o p H) as ((q & ? & ?) & Hp). split; [|done].
    exists q. rewrite elem_of_app. auto.
Qed.

Lemma insert_order_product_consistent order_id product_id s s' :
  insert_order_product order_id product_id s = Some s' →
  consistent s → consistent s'.
Proof.
  unfold insert_order_product. case_bool_decide as Hnew; [done|].
  destruct (get Order.id _ _) as [o|] eqn:Ho; [|done].
  destruct (get Product.id _ _) as [p|] eqn:Hp; [|done].
  intros [= <-] (Hu & Ha & Hn). apply get_Some in Ho, Hp.
  split_consistent; [done| |].
  - intros o' p' H. apply elem_of_app in H. destruct H as [H|H]; [by apply Ha|].
    apply list_elem_of_singleton in H. injection H as -> ->.
    split; [exists o|exists p]; tauto.
  - apply NoDup_app. split; [done|]. split; [|apply NoDup_singleton].
    intros x Hx Hx'. apply list_elem_of_singleton in Hx'. by subst x.
Qed.

Lemma route_consistent r s : consistent s → consistent (route collate r s).2.
Proof.
  intros Hs. destruct r; simpl; try done.
  - unfold create_user. destruct json; [|done].
    destruct (insert_user _ _ _) as [[u s']|] eqn:E; [|done].
    by eapply insert_user_consistent.
  - unfold update_user. destruct (get _ _ _); [|done]. destruct json; [|done].
    destruct (update_user_row _ _ _ _) as [s'|] eqn:E; [|done].
    by eapply update_user_row_consistent.
  - unfold delete_user. destruct (get _ _ _); [|done].
    destruct (delete_user_row _ _) as [s'|] eqn:E; [|done].
    by eapply delete_user_row_consistent.
  - unfold create_product. destruct json; [|done].
    by apply insert_product_consistent.
  - unfold update_product. destruct (get _ _ _); [|done]. destruct json; [|done].
    by apply update_product_row_consistent.
  - unfold delete_product. destruct (get _ _ _); [|done].
    by apply delete_product_row_consistent.
  - unfold new_order. destruct json; [|done].
    destruct (insert_order _ _) as [[o s']|] eqn:E; [|done].
    by eapply insert_order_consistent.
  - unfold add_product. destruct (get Order.id _ _); [|done].
    destruct (get Product.id _ _); [|done]. case_match; [done|].
    destruct (insert_order_product _ _ _) as [s'|] eqn:E; [|done].
    by eapply insert_order_product_consistent.
  - unfold remove_product. destruct (get Order.id _ _); [|done].
    case_match; [done|]. destruct (get Product.id _ _); [|done].
    by apply delete_product_row_consistent.
  - unfold get_order_products. by destruct (get _ _ _).
Qed.

Lemma serve_consistent requests s :
  consistent s → consistent (serve collate s requests).
Proof.
  revert s. induction requests as [|r requests IH]; intros s Hs; [done|].
  simpl. apply IH. by apply route_consistent.
Qed.

End consistency.

(** ** Primary keys of reachable stores *)

Section keys.
Context {R : Type} (key : R → Z).

Lemma keys_below_nil seq : keys_below key [] seq.
Proof.
  split; [constructor|]. intros r Hr. by apply not_elem_of_nil in Hr.
Qed.

Lemma keys_below_insert rows seq r :
  key r = seq → keys_below key rows seq → keys_below key (rows ++ [r]) (seq + 1).
Proof.
  intros Hr [Hn Hlt]. split.
  - rewrite fmap_app. apply NoDup_app. split; [done|].
    split; [|apply NoDup_singleton].
    intros k Hk Hk'. apply list_elem_of_singleton in Hk'. subst k.
    apply list_elem_of_fmap in Hk. destruct Hk as (q & Hq & Hin).
    specialize (Hlt q Hin). lia.
  - intros q Hq. apply elem_of_app in Hq. destruct Hq as [Hq|Hq].
    + specialize (Hlt q Hq). lia.
    + apply list_elem_of_singleton in Hq. subst q. lia.
Qed.

Lemma keys_below_delete_row k rows seq :
  keys_below key rows seq → keys_below key (delete_row key k rows) seq.
Proof.
  intros [Hn Hlt]. split.
  - apply (sublist_NoDup _ (key <$> rows)); [done|].
    apply fmap_sublist, sublist_filter.
  - intros r Hr. apply elem_of_delete_row in Hr. apply Hlt. tauto.
Qed.

Lemma keys_below_update_row k f rows seq :
  (∀ r, key (f r) = key r) →
  keys_below key rows seq → keys_below key (update_row key k f rows) seq.
Proof.
  intros Hf [Hn Hlt]. split; [by rewrite update_row_keys|].
  intros r' Hr'. apply elem_of_update_row in Hr'. destruct Hr' as (r & Hr & ->).
  case_decide; rewrite ?Hf; by apply Hlt.
Qed.

(** With distinct keys, [get] finds each row by its key. *)
Lemma get_elem_of rows seq r :
  keys_below key rows seq → r ∈ rows → get key (key r) rows = Some r.
Proof.
  intros [Hn _] Hr. destruct (get key (key r) rows) as [q|] eqn:E.
  - apply get_Some in E. destruct E as [Hq Hk]. f_equal.
    apply list_elem_of_lookup in Hq, Hr. destruct Hq as [i Hi], Hr as [j Hj].
    assert (i = j) as ->; [|congruence].
    apply (NoDup_lookup (key <$> rows) i j (key r)); [done|..];
      rewrite list_lookup_fmap; [by rewrite Hi; simpl; f_equal | by rewrite Hj].
  - rewrite get_None in E. by destruct (E r Hr).
Qed.

End keys.

Lemma primary_keys_empty : primary_keys empty.
Proof. repeat split; simpl; try constructor; intros r Hr; by apply not_elem_of_nil in Hr. Qed.

Lemma route_primary_keys collate r s :
  primary_keys s → primary_keys (route collate r s).2.
Proof.
  intros (Hu & Hp & Ho). destruct r; simpl; try done.
  - unfold create_user, insert_user. destruct json; [|done].
    destruct (email_taken _ _ _); [done|]. split; [|done].
    by apply keys_below_insert.
  - unfold update_user, update_user_row. destruct (get _ _ _); [|done].
    destruct json; [|done]. destruct (email_taken _ _ _); [done|].
    split; [|done]. by apply keys_below_update_row.
  - unfold delete_user, delete_user_row. destruct (get _ _ _); [|done].
    destruct (bool_decide _); [done|]. split; [|done].
    by apply keys_below_delete_row.
  - unfold create_product. destruct json; [|done]. split; [done|]. split; [|done].
    by apply keys_below_insert.
  - unfold update_product. destruct (get _ _ _); [|done]. destruct json; [|done].
    split; [done|]. split; [|done]. by apply keys_below_update_row.
  - unfold delete_product. destruct (get _ _ _); [|done].
    split; [done|]. split; [|done]. by apply keys_below_delete_row.
  - unfold new_order, insert_order. destruct json; [|done].
    destruct (get _ _ _); [|done]. split; [done|]. split; [done|].
    by apply keys_below_insert.
  - unfold add_product. destruct (get Order.id _ _); [|done].
    destruct (get Product.id _ _); [|done]. destruct (product_in _ _); [done|].
    unfold insert_order_product. destruct (bool_decide _); [done|].
    destruct (get Order.id _ _); [|done]. by destruct (get Product.id _ _).
  - unfold remove_product. destruct (get Order.id _ _); [|done].
    destruct (negb _); [done|]. destruct (get Product.id _ _); [|done].
    split; [done|]. split; [|done]. by apply keys_below_delete_row.
  - unfold get_order_products. by destruct (get _ _ _).
Qed.

Lemma serve_primary_keys collate requests s :
  primary_keys s → primary_keys (serve collate s requests).
Proof.
  revert s. induction requests as [|r requests IH]; intros s Hs; [done|].
  simpl. apply IH. by apply route_primary_keys.
Qed.

(** The stores reached from the empty one have distinct primary keys, so
    [get] there is the lookup of the one row of that key. *)
Lemma reachable_primary_keys collate requests :
  primary_keys (serve collate empty requests).
Proof. apply serve_primary_keys, primary_keys_empty. Qed.

(** ** The shop *)

Example shop_tables :
  User.id <$> users shop = [1; 2] ∧
  Product.id <$> products shop = [1; 2] ∧
  Order.user_id <$> orders shop = [1; 2] ∧
  order_product shop = [(1, 1); (2, 1)].
Proof. vm_compute. done. Qed.

(** ** Removing a product from an order *)

Lemma remove_product_no_order order_id product_id s :
  get Order.id order_id (orders s) = None →
  remove_product order_id product_id s = (Raise AttributeError, s).
Proof. unfold remove_product. by intros ->. Qed.

(** A successful removal deletes the product row itself, with every
    association row of the product, whatever order it belongs to. *)
Lemma remove_product_200 order_id product_id s b s' :
  remove_product order_id product_id s = (Reply b 200, s') →
  get Product.id product_id (products s') = None ∧
  ∀ o, (o, product_id) ∉ order_product s'.
Proof.
  unfold remove_product. destruct (get Order.id _ _) as [order|]; [|done].
  case_match; [done|].
  destruct (get Product.id _ _) as [product|] eqn:Hp; [|done].
  apply get_Some in Hp. destruct Hp as [_ Hid]. rewrite Hid.
  intros [= _ <-]. simpl. split.
  - apply get_None. intros r Hr. apply elem_of_delete_row in Hr. tauto.
  - intros o Ho. apply list_elem_of_filter in Ho. simpl in Ho. tauto.
Qed.

(** C1. DELETE /orders/1/remove_product/1 on the shop, where the pen is in
    orders 1 and 2: the handler answers 200, and afterwards the pen is no
    longer a product of the store (GET /products/1 finds nothing) and order
    2 has lost it too. The claim keeps the product and the other order's
    association. *)
Theorem remove_product_deletes_the_product :
  let r := remove_product 1 1 shop in
  order_product shop = [(1, 1); (2, 1)] ∧
  r.1 = Reply (message_json (successfully_deleted (Product.mk 1 "pen" (3 # 2)))) 200 ∧
  Product.id <$> products shop = [1; 2] ∧
  Product.id <$> products r.2 = [2] ∧
  (get_product 1 r.2).1 = Reply (product_json None) 200 ∧
  order_product r.2 = [].
Proof.
  cbv zeta. by vm_compute.
Qed.

(** C5. When [order_id] names no order, remove-product does not answer
    NotFound: reading [order.product] on [None] raises. *)
Theorem remove_product_raises_without_order order_id product_id s :
  get Order.id order_id (orders s) = None →
  remove_product order_id product_id s = (Raise AttributeError, s) ∧
  ¬ NotFound (remove_product order_id product_id s).1.
Proof.
  intros H. rewrite (remove_product_no_order _ _ _ H). simpl. tauto.
Qed.

Lemma remove_product_raises_without_order_witness :
  get Order.id 1 (orders empty) = None ∧
  remove_product 1 1 empty = (Raise AttributeError, empty) ∧
  ¬ NotFound (remove_product 1 1 empty).1.
Proof.
  split; [reflexivity|].
  apply (remove_product_raises_without_order 1 1 empty). reflexivity.
Defined.

(** ** Reachable stores *)

(** C2. In every store reached from the empty one by any sequence of
    requests to the fifteen routes, every order references an existing
    user, every association row links an existing order and an existing
    product, and no association pair occurs twice. *)
Theorem reachable_store_consistent (collate : string → string → bool)
    (requests : list request) :
  let s := serve collate empty requests in
  (∀ o, o ∈ orders s → ∃ u, u ∈ users s ∧ User.id u = Order.user_id o) ∧
  (∀ order_id product_id, (order_id, product_id) ∈ order_product s →
     (∃ o, o ∈ orders s ∧ Order.id o = order_id) ∧
     (∃ p, p ∈ products s ∧ Product.id p = product_id)) ∧
  NoDup (order_product s).
Proof. apply (serve_consistent collate requests empty), consistent_empty. Qed.

(** ** Adding a product to an order *)

Lemma add_product_not_found order_id product_id s :
  get Order.id order_id (orders s) = None ∨
  get Product.id product_id (products s) = None →
  add_product order_id product_id s =
    (Reply (message_json Order_or_Product_not_found) 404, s).
Proof.
  unfold add_product. intros [-> | ->]; [done|].
  by destruct (get Order.id _ _).
Qed.

Lemma add_product_conflict order_id product_id s order product :
  get Order.id order_id (orders s) = Some order →
  get Product.id product_id (products s) = Some product →
  (order_id, product_id) ∈ order_product s →
  add_product order_id product_id s =
    (Reply (message_json Product_already_in_order) 400, s).
Proof.
  intros Ho Hp Hin. unfold add_product. rewrite Ho, Hp.
  apply get_Some in Ho, Hp. destruct Ho as [_ <-], Hp as [Hp <-].
  apply (product_in_Order_product s order product Hp) in Hin. by rewrite Hin.
Qed.

Lemma add_product_inserts order_id product_id s order product :
  get Order.id order_id (orders s) = Some order →
  get Product.id product_id (products s) = Some product →
  (order_id, product_id) ∉ order_product s →
  add_product order_id product_id s =
    (Reply (message_json (Successfully_added_to_order (Product.product_name product))) 200,
     with_order_product s (order_product s ++ [(order_id, product_id)])).
Proof.
  intros Ho Hp Hin. unfold add_product. rewrite Ho, Hp.
  pose proof (get_Some _ _ _ _ Ho) as [_ Hoid].
  pose proof (get_Some _ _ _ _ Hp) as [Hpin Hpid].
  destruct (product_in _ _) eqn:E.
  - apply (product_in_Order_product s order product Hpin) in E.
    rewrite Hoid, Hpid in E. by destruct Hin.
  - unfold insert_order_product. rewrite Hoid, Hpid.
    rewrite bool_decide_eq_false_2 by done. by rewrite Ho, Hp.
Qed.

Lemma association_count_fresh order_id product_id s :
  (order_id, product_id) ∉ order_product s →
  association_count order_id product_id
    (with_order_product s (order_product s ++ [(order_id, product_id)])) = 1%nat.
Proof.
  intros Hin. unfold association_count. simpl. rewrite filter_app, length_app.
  destruct (filter _ (order_product s)) as [|row l] eqn:E.
  - simpl. by rewrite filter_cons_True.
  - assert (row ∈ filter (λ row, row = (order_id, product_id)) (order_product s))
      as Hrow by (rewrite E; left).
    apply list_elem_of_filter in Hrow. destruct Hrow as [-> Hrow]. by destruct Hin.
Qed.

(** C3. For an existing order and an existing product not yet associated,
    add-product answers 200 and appends the association row; the same
    request again answers the conflict (400) and leaves the store as it
    is, with exactly one row for the pair. A pair already associated gets
    the conflict at once. When the order or the product is missing the
    answer is NotFound and the store is unchanged. *)
Theorem add_product_once order_id product_id s :
  (∀ order product,
     get Order.id order_id (orders s) = Some order →
     get Product.id product_id (products s) = Some product →
     ((order_id, product_id) ∉ order_product s →
      let s' := with_order_product s (order_product s ++ [(order_id, product_id)]) in
      add_product order_id product_id s =
        (Reply (message_json
                  (Successfully_added_to_order (Product.product_name product))) 200, s') ∧
      Conflict (add_product order_id product_id s').1 ∧
      (add_product order_id product_id s').2 = s' ∧
      association_count order_id product_id (add_product order_id product_id s').2 = 1%nat) ∧
     ((order_id, product_id) ∈ order_product s →
      Conflict (add_product order_id product_id s).1 ∧
      (add_product order_id product_id s).2 = s)) ∧
  (get Order.id order_id (orders s) = None ∨
   get Product.id product_id (products s) = None →
   NotFound (add_product order_id product_id s).1 ∧
   (add_product order_id product_id s).2 = s).
Proof.
  split.
  - intros order product Ho Hp. split.
    + intros Hin s'. split; [by apply (add_product_inserts _ _ _ order)|].
      assert (add_product order_id product_id s' =
              (Reply (message_json Product_already_in_order) 400, s')) as ->.
      { apply (add_product_conflict _ _ s' order product); [done..|].
        simpl. apply elem_of_app. right. left. }
      simpl. split; [done|]. split; [done|]. by apply association_count_fresh.
    + intros Hin. by rewrite (add_product_conflict _ _ _ _ _ Ho Hp Hin).
  - intros H. by rewrite (add_product_not_found _ _ _ H).
Qed.

Lemma add_product_once_witness :
  let s' := with_order_product shop (order_product shop ++ [(1, 2)]) in
  ((1, 2) ∉ order_product shop) ∧
  (add_product 1 2 shop).2 = s' ∧
  Conflict (add_product 1 2 s').1 ∧
  (add_product 1 2 s').2 = s' ∧
  association_count 1 2 (add_product 1 2 s').2 = 1%nat.
Proof.
  assert ((1, 2) ∉ order_product shop) as Hin.
  { intros H. apply (bool_decide_pack _) in H. vm_compute in H. exact H. }
  intros s'. split; [exact Hin|].
  destruct (add_product_once 1 2 shop) as [H _].
  destruct (H (Order.mk 1 (Date 2024 1 2) 1) (Product.mk 2 "ink" (7 # 1))
              eq_refl eq_refl) as [H' _].
  destruct (H' Hin) as (E & Hc & Hs & Hn). fold s' in E, Hc, Hs, Hn.
  rewrite E. tauto.
Defined.

(** ** Fetching by id *)

(** C4. For an id that names no row, GET /users/<id> and GET
    /products/<id> answer 200 with an empty entity, not NotFound; only
    GET /orders/<order_id>/products answers NotFound. *)
Theorem get_missing_row id s :
  (get User.id id (users s) = None →
   get_user id s = (Reply (user_json None) 200, s) ∧ ¬ NotFound (get_user id s).1) ∧
  (get Product.id id (products s) = None →
   get_product id s = (Reply (product_json None) 200, s) ∧
   ¬ NotFound (get_product id s).1) ∧
  (get Order.id id (orders s) = None →
   get_order_products id s = (Reply (message_json Order_not_found) 404, s) ∧
   NotFound (get_order_products id s).1).
Proof.
  unfold get_user, get_product, get_order_products.
  split; [|split]; intros ->; simpl; tauto.
Qed.

Lemma get_missing_row_witness :
  get User.id 1 (users empty) = None ∧
  get_user 1 empty = (Reply (user_json None) 200, empty) ∧
  ¬ NotFound (get_user 1 empty).1.
Proof.
  split; [reflexivity|].
  destruct (get_missing_row 1 empty) as [H _]. apply H. reflexivity.
Defined.

(** ** Creating an order *)

(** C6. POST /orders with a body the schema refuses answers 400 with the
    messages and leaves the store as it is. With a loaded body whose
    [user_id] names no user the handler has no answer of its own: the
    insert is refused at commit and the error escapes, which is not
    NotFound. With a known user the order is inserted and returned with
    status 201. *)
Theorem new_order_cases s :
  (∀ messages,
     new_order (ValidationError messages) s = (Reply (messages_json messages) 400, s)) ∧
  (∀ d, get User.id (OrderData.user_id d) (users s) = None →
     new_order (Loaded d) s = (Raise DatabaseError, s) ∧
     ¬ NotFound (new_order (Loaded d) s).1) ∧
  (∀ d, is_Some (get User.id (OrderData.user_id d) (users s)) →
     let o := Order.mk (order_seq s) (OrderData.order_date d) (OrderData.user_id d) in
     ∃ s', new_order (Loaded d) s = (Reply (order_json o) 201, s') ∧
           orders s' = orders s ++ [o] ∧
           users s' = users s ∧ products s' = products s ∧
           order_product s' = order_product s).
Proof.
  split; [done|]. unfold new_order, insert_order. split.
  - intros d ->. simpl. tauto.
  - intros d [u ->]. simpl. eauto 10.
Qed.

Lemma new_order_cases_witness :
  get User.id 1 (users empty) = None ∧
  new_order (Loaded (OrderData.mk None (Date 2024 1 2) 1)) empty =
    (Raise DatabaseError, empty) ∧
  ¬ NotFound (new_order (Loaded (OrderData.mk None (Date 2024 1 2) 1)) empty).1.
Proof.
  split; [reflexivity|].
  destruct (new_order_cases empty) as (_ & H & _).
  apply (H (OrderData.mk None (Date 2024 1 2) 1)). reflexivity.
Defined.

(** ** Orders of a user *)

(** C7. GET /orders/user/<user_id> answers with exactly the order rows
    whose [user_id] is the given one: every such row of the table is in
    the answer and nothing else is. *)
Theorem get_user_orders_exact user_id s :
  ∃ l, get_user_orders user_id s = (Reply (orders_json l) 200, s) ∧
       ∀ o, o ∈ l ↔ o ∈ orders s ∧ Order.user_id o = user_id.
Proof.
  eexists. split; [reflexivity|]. intros o.
  rewrite list_elem_of_filter. tauto.
Qed.

(** C10. GET /orders/user/<user_id> always answers 200 with a list of
    orders, whether or not the user exists; it never answers NotFound,
    never raises, and does not touch the store. *)
Theorem get_user_orders_total user_id s :
  ∃ l, (get_user_orders user_id s).1 = Reply (orders_json l) 200 ∧
       l = filter (λ o, Order.user_id o = user_id) (orders s) ∧
       ¬ NotFound (get_user_orders user_id s).1 ∧
       (get_user_orders user_id s).2 = s.
Proof. eexists. simpl. repeat split. tauto. Qed.

Example get_user_orders_unknown_user :
  get User.id 9 (users shop) = None ∧
  get_user_orders 9 shop = (Reply (orders_json []) 200, shop).
Proof. by vm_compute. Qed.

(** ** Updating a user *)

Lemma update_user_row_replaces id d s user :
  get User.id id (users s) = Some user →
  replaces_name_email id d s
    (Reply (user_json (Some (set_name_email d user))) 200,
     with_users s (update_row User.id id (set_name_email d) (users s))).
Proof.
  intros Hget. exists user. simpl. split; [done|]. split; [done|].
  split; [done|]. unfold update_row. split; [by rewrite length_fmap|].
  intros i u Hi. rewrite list_lookup_fmap, Hi. simpl.
  eexists. split; [reflexivity|]. by case_decide.
Qed.

(** C8, as stated, fails: user 2 exists and the body is a loaded one, but
    the email is user 1's; the unique index refuses the update, nothing is
    replaced and the error escapes the handler. *)
Lemma update_user_duplicate_email :
  is_Some (get User.id 2 (users shop)) ∧
  ¬ replaces_name_email 2 bob_as_ann shop
      (update_user String.eqb 2 (Loaded bob_as_ann) shop) ∧
  update_user String.eqb 2 (Loaded bob_as_ann) shop = (Raise DatabaseError, shop).
Proof.
  split; [by vm_compute; eauto|]. split; [|by vm_compute].
  intros (user & _ & Hr & _). vm_compute in Hr. discriminate Hr.
Qed.

(** C8, amended. PUT /users/<id> with a loaded body whose email collides
    with no other user's email replaces exactly the name and email of that
    user, keeps the user's id and address and leaves every other user
    unchanged. When another user holds the email, the update is refused,
    the error escapes and the store is unchanged. When no user has the
    id, the answer is NotFound and the store is unchanged. *)
Theorem update_user_frame (collate : string → string → bool) id d s :
  (is_Some (get User.id id (users s)) →
   email_taken collate (UserData.email d) (delete_row User.id id (users s)) = false →
   replaces_name_email id d s (update_user collate id (Loaded d) s)) ∧
  (is_Some (get User.id id (users s)) →
   email_taken collate (UserData.email d) (delete_row User.id id (users s)) = true →
   update_user collate id (Loaded d) s = (Raise DatabaseError, s)) ∧
  (get User.id id (users s) = None →
   ∀ json, update_user collate id json s =
             (Reply (message_json Invalid_user_id) 404, s)).
Proof.
  unfold update_user, update_user_row. split; [|split].
  - intros [user Hget] ->. rewrite Hget. by apply update_user_row_replaces.
  - intros [user ->] ->. done.
  - intros ->. done.
Qed.

Lemma update_user_frame_witness :
  is_Some (get User.id 2 (users shop)) ∧
  email_taken String.eqb (UserData.email bob_moves)
    (delete_row User.id 2 (users shop)) = false ∧
  replaces_name_email 2 bob_moves shop
    (update_user String.eqb 2 (Loaded bob_moves) shop).
Proof.
  assert (is_Some (get User.id 2 (users shop))) as Hu by (vm_compute; eauto).
  split; [exact Hu|]. split; [reflexivity|].
  destruct (update_user_frame String.eqb 2 bob_moves shop) as [H _].
  apply H; [exact Hu | reflexivity].
Defined.

Example update_user_bob_moves :
  users (update_user String.eqb 2 (Loaded bob_moves) shop).2 =
    [ User.mk 1 "Ann" "1 Main St" "ann@example.com";
      User.mk 2 "Robert" "2 High St" "robert@example.com" ].
Proof. by vm_compute. Qed.

(** ** Prices *)

(** C9, as stated, fails: POST /products with a price of -1 stores a
    product whose price is negative. *)
Lemma create_product_negative_price :
  let json := Loaded (ProductData.mk None "coupon" (-1 # 1)) in
  ¬ nonnegative_prices (create_product json empty).2 ∧
  products (create_product json empty).2 = [Product.mk 1 "coupon" (-1 # 1)] ∧
  ¬ nonnegative_prices (update_product 1 json shop).2.
Proof.
  cbv zeta. split; [|split; [reflexivity|]].
  - intros H. specialize (H (Product.mk 1 "coupon" (-1 # 1))).
    assert (0 <= -1 # 1)%Q as Hle by (apply H; vm_compute; left).
    vm_compute in Hle. by apply Hle.
  - intros H. specialize (H (Product.mk 1 "coupon" (-1 # 1))).
    assert (0 <= -1 # 1)%Q as Hle by (apply H; vm_compute; left).
    vm_compute in Hle. by apply Hle.
Qed.

Lemma nonnegative_prices_same_products s s' :
  products s' = products s → nonnegative_prices s → nonnegative_prices s'.
Proof. unfold nonnegative_prices. by intros ->. Qed.

Lemma route_nonnegative_prices collate r s :
  supplies_nonnegative_price r → nonnegative_prices s →
  nonnegative_prices (route collate r s).2.
Proof.
  intros Hr Hs. destruct r; simpl; try done.
  - unfold create_user, insert_user. destruct json; [|done].
    destruct (email_taken _ _ _); by apply (nonnegative_prices_same_products s).
  - unfold update_user, update_user_row. destruct (get _ _ _); [|done].
    destruct json; [|done].
    destruct (email_taken _ _ _); by apply (nonnegative_prices_same_products s).
  - unfold delete_user, delete_user_row. destruct (get _ _ _); [|done].
    destruct (bool_decide _); by apply (nonnegative_prices_same_products s).
  - unfold create_product. destruct json as [d|]; [|done]. simpl.
    intros p Hp. simpl in Hp.
    apply elem_of_app in Hp. destruct Hp as [Hp|Hp]; [by apply Hs|].
    apply list_elem_of_singleton in Hp. by subst p.
  - unfold update_product. destruct (get _ _ _); [|done].
    destruct json as [d|]; [|done]. simpl.
    intros p Hp. simpl in Hp.
    apply elem_of_update_row in Hp. destruct Hp as (q & Hq & ->).
    case_decide; [done|by apply Hs].
  - unfold delete_product. destruct (get _ _ _); [|done]. simpl.
    intros p Hp. simpl in Hp. apply elem_of_delete_row in Hp. apply Hs. tauto.
  - unfold new_order, insert_order. destruct json; [|done].
    destruct (get _ _ _); by apply (nonnegative_prices_same_products s).
  - unfold add_product. destruct (get Order.id _ _); [|done].
    destruct (get Product.id _ _); [|done]. case_match; [done|].
    unfold insert_order_product. destruct (bool_decide _); [done|].
    destruct (get Order.id _ _); [|done].
    destruct (get Product.id _ _); by apply (nonnegative_prices_same_products s).
  - unfold remove_product. destruct (get Order.id _ _); [|done].
    case_match; [done|]. destruct (get Product.id _ _); [|done]. simpl.
    intros p Hp. simpl in Hp. apply elem_of_delete_row in Hp. apply Hs. tauto.
  - unfold get_order_products. by destruct (get _ _ _).
Qed.

(** C9, amended. No route checks the sign of a price: the products of the
    store all have a non-negative price provided every POST /products and
    PUT /products/<id> body of the run supplied a non-negative price. *)
Theorem nonnegative_prices_from_bodies (collate : string → string → bool)
    (requests : list request) :
  Forall supplies_nonnegative_price requests →
  nonnegative_prices (serve collate empty requests).
Proof.
  assert (nonnegative_prices empty) as H0.
  { intros p Hp. by apply not_elem_of_nil in Hp. }
  revert H0. generalize empty.
  induction requests as [|r requests IH]; intros s Hs Hall; [done|].
  apply Forall_cons in Hall. destruct Hall as [Hr Hall].
  simpl. apply IH; [|done]. by apply route_nonnegative_prices.
Qed.

Lemma nonnegative_prices_from_bodies_witness :
  Forall supplies_nonnegative_price
    [POST_products (Loaded pen); PUT_product 1 (Loaded ink); DELETE_product 1] ∧
  nonnegative_prices
    (serve String.eqb empty
       [POST_products (Loaded pen); PUT_product 1 (Loaded ink); DELETE_product 1]).
Proof.
  assert (Forall supplies_nonnegative_price
    [POST_products (Loaded pen); PUT_product 1 (Loaded ink); DELETE_product 1]) as H.
  { repeat constructor; simpl; discriminate. }
  split; [exact H|]. apply (nonnegative_prices_from_bodies String.eqb _ H).
Defined.

(** * Further properties of the handlers *)

(** ** Lookups after a statement *)

Section lookups.
Context {R : Type} (key : R → Z).

Lemma get_cons k r rows :
  get key k (r :: rows) = if decide (key r = k) then Some r else get key k rows.
Proof. unfold get. rewrite filter_cons. by case_decide. Qed.

Lemma get_insert_other k r rows :
  key r ≠ k → get key k (rows ++ [r]) = get key k rows.
Proof.
  intros Hk. unfold get. rewrite filter_app, filter_cons_False by done.
  by rewrite filter_nil, app_nil_r.
Qed.

Lemma get_insert_fresh r rows seq :
  keys_below key rows seq → key r = seq → get key seq (rows ++ [r]) = Some r.
Proof.
  intros [_ Hlt] Hr. unfold get. rewrite filter_app.
  destruct (filter _ rows) as [|q l] eqn:E.
  - rewrite filter_cons_True by done. done.
  - assert (q ∈ filter (λ r, key r = seq) rows) as Hq by (rewrite E; left).
    apply list_elem_of_filter in Hq. destruct Hq as [Hk Hq].
    specialize (Hlt q Hq). lia.
Qed.

Lemma get_delete_row k rows : get key k (delete_row key k rows) = None.
Proof.
  apply get_None. intros r Hr. apply elem_of_delete_row in Hr. tauto.
Qed.

Lemma get_delete_row_other k j rows :
  j ≠ k → get key j (delete_row key k rows) = get key j rows.
Proof.
  intros Hj. induction rows as [|r rows IH]; [done|].
  unfold delete_row in *. rewrite filter_cons.
  destruct (decide (key r ≠ k)) as [Hk|Hk].
  - by rewrite !get_cons, IH.
  - rewrite get_cons, IH. rewrite decide_False; [done|].
    intros E. apply Hk. congruence.
Qed.

Lemma get_update_row k f j rows :
  (∀ r, key (f r) = key r) →
  get key j (update_row key k f rows) =
    (λ r, if decide (key r = k) then f r else r) <$> get key j rows.
Proof.
  intros Hf. induction rows as [|r rows IH]; [done|].
  unfold update_row in *. rewrite fmap_cons, !get_cons.
  assert (key (if decide (key r = k) then f r else r) = key r) as ->
    by (case_decide; by rewrite ?Hf).
  by case_decide.
Qed.

Lemma delete_row_absent k rows :
  k ∉ key <$> rows → delete_row key k rows = rows.
Proof.
  induction rows as [|r rows IH]; [done|].
  rewrite fmap_cons, not_elem_of_cons. intros [Hne Hin].
  unfold delete_row. rewrite filter_cons_True by congruence.
  f_equal. by apply IH.
Qed.

Lemma update_row_absent k f rows :
  k ∉ key <$> rows → update_row key k f rows = rows.
Proof.
  induction rows as [|r rows IH]; [done|].
  rewrite fmap_cons, not_elem_of_cons. intros [Hne Hin].
  unfold update_row. rewrite fmap_cons, decide_False by congruence.
  f_equal. by apply IH.
Qed.


End lookups.

(** ** Creating and fetching *)

Lemma email_taken_false collate e rows :
  email_taken collate e rows = false ↔
  ∀ u, u ∈ rows → collate (User.email u) e = false.
Proof.
  unfold email_taken. induction rows as [|q rows IH]; simpl.
  - split; [|done]. intros _ u Hu. by apply not_elem_of_nil in Hu.
  - rewrite orb_false_iff, IH. split.
    + intros [Hq Hrows] u Hu. apply elem_of_cons in Hu.
      destruct Hu as [->|Hu]; auto.
    + intros H. split; [apply H; left|]. intros u Hu. apply H. by right.
Qed.

(** X1. POST /users with a loaded body whose email is free answers 201
    with a user carrying the supplied name, address and email; GET
    /users/<id> with the id of the answer then returns that same user, and
    the answer for every other id is what it was before. *)
Theorem create_user_then_get_user collate d s :
  keys_below User.id (users s) (user_seq s) →
  email_taken collate (UserData.email d) (users s) = false →
  ∃ u s', create_user collate (Loaded d) s = (Reply (user_json (Some u)) 201, s') ∧
    User.name u = UserData.name d ∧
    User.address u = UserData.address d ∧
    User.email u = UserData.email d ∧
    get_user (User.id u) s' = (Reply (user_json (Some u)) 200, s') ∧
    ∀ k, k ≠ User.id u → (get_user k s').1 = (get_user k s).1.
Proof.
  intros Hkeys Hfree. unfold create_user, insert_user. rewrite Hfree.
  eexists _, _. split; [reflexivity|]. simpl. repeat split.
  - unfold get_user. simpl. by erewrite get_insert_fresh.
  - intros k Hk. unfold get_user. simpl. rewrite get_insert_other; [done|].
    simpl. congruence.
Qed.

Lemma create_user_then_get_user_witness :
  ∃ u s', create_user String.eqb (Loaded ann) empty =
            (Reply (user_json (Some u)) 201, s') ∧
    User.name u = UserData.name ann ∧
    User.address u = UserData.address ann ∧
    User.email u = UserData.email ann ∧
    get_user (User.id u) s' = (Reply (user_json (Some u)) 200, s') ∧
    ∀ k, k ≠ User.id u → (get_user k s').1 = (get_user k empty).1.
Proof.
  apply (create_user_then_get_user String.eqb ann empty).
  - apply keys_below_nil.
  - reflexivity.
Defined.

(** X2. POST /products with a loaded body always answers 201 with a
    product carrying the supplied name and price; GET /products/<id> with
    the id of the answer then returns that same product, and the answer
    for every other id is what it was before. *)
Theorem create_product_then_get_product d s :
  keys_below Product.id (products s) (product_seq s) →
  ∃ p s', create_product (Loaded d) s = (Reply (product_json (Some p)) 201, s') ∧
    Product.product_name p = ProductData.product_name d ∧
    Product.price p = ProductData.price d ∧
    get_product (Product.id p) s' = (Reply (product_json (Some p)) 200, s') ∧
    ∀ k, k ≠ Product.id p → (get_product k s').1 = (get_product k s).1.
Proof.
  intros Hkeys. unfold create_product, insert_product.
  eexists _, _. split; [reflexivity|]. simpl. repeat split.
  - unfold get_product. simpl. by erewrite get_insert_fresh.
  - intros k Hk. unfold get_product. simpl. rewrite get_insert_other; [done|].
    simpl. congruence.
Qed.

Lemma create_product_then_get_product_witness :
  ∃ p s', create_product (Loaded pen) empty =
            (Reply (product_json (Some p)) 201, s') ∧
    Product.product_name p = ProductData.product_name pen ∧
    Product.price p = ProductData.price pen ∧
    get_product (Product.id p) s' = (Reply (product_json (Some p)) 200, s') ∧
    ∀ k, k ≠ Product.id p → (get_product k s').1 = (get_product k empty).1.
Proof.
  apply (create_product_then_get_product pen empty), keys_below_nil.
Defined.

(** X3. Once POST /users has created a user, a further POST /users with
    the same email is refused by the unique index: the database error
    escapes the handler and the store is unchanged. The index comparison is
    only assumed to identify equal strings. *)
Theorem create_user_same_email_twice collate d d' s b s' :
  (∀ e, collate e e = true) →
  create_user collate (Loaded d) s = (Reply b 201, s') →
  UserData.email d' = UserData.email d →
  create_user collate (Loaded d') s' = (Raise DatabaseError, s').
Proof.
  intros Hrefl Hcreate Hd'. unfold create_user, insert_user in *.
  destruct (email_taken collate (UserData.email d) (users s)); [done|].
  injection Hcreate as _ <-. simpl.
  unfold email_taken. rewrite existsb_app. simpl.
  by rewrite Hd', Hrefl, orb_true_r.
Qed.

Lemma create_user_same_email_twice_witness :
  create_user String.eqb (Loaded bob_as_ann) (create_user String.eqb (Loaded ann) empty).2 =
    (Raise DatabaseError, (create_user String.eqb (Loaded ann) empty).2).
Proof.
  apply (create_user_same_email_twice String.eqb ann bob_as_ann empty
           (user_json (Some (User.mk 1 "Ann" "1 Main St" "ann@example.com")))).
  - apply String.eqb_refl.
  - reflexivity.
  - reflexivity.
Defined.

(** ** Emails stay distinct *)

Section emails.
Context (collate : string → string → bool).
Hypothesis collate_refl : ∀ e, collate e e = true.

Lemma email_not_taken e rows :
  email_taken collate e rows = false → e ∉ User.email <$> rows.
Proof.
  intros Hfree Hin. apply list_elem_of_fmap in Hin. destruct Hin as (u & -> & Hu).
  rewrite email_taken_false in Hfree. specialize (Hfree u Hu).
  by rewrite collate_refl in Hfree.
Qed.

Lemma update_row_distinct_emails id d rows :
  NoDup (User.id <$> rows) → NoDup (User.email <$> rows) →
  email_taken collate (UserData.email d) (delete_row User.id id rows) = false →
  NoDup (User.email <$> update_row User.id id (set_name_email d) rows).
Proof.
  induction rows as [|u rows IH]; [done|].
  rewrite !fmap_cons, !NoDup_cons. intros [Hid Hids] [Hemail Hemails].
  unfold delete_row. rewrite filter_cons. fold (delete_row User.id id rows).
  unfold update_row. rewrite fmap_cons.
  fold (update_row User.id id (set_name_email d) rows).
  destruct (decide (User.id u ≠ id)) as [Hne|Heq]; intros Hfree.
  - simpl in Hfree. apply orb_false_iff in Hfree. destruct Hfree as [Hu Hfree].
    rewrite decide_False by done. apply NoDup_cons. split; [|by apply IH].
    intros Hin. apply list_elem_of_fmap in Hin. destruct Hin as (q' & Hq' & Hin).
    apply elem_of_update_row in Hin. destruct Hin as (q & Hq & ->).
    case_decide.
    + simpl in Hq'. rewrite Hq', collate_refl in Hu. done.
    + apply Hemail. apply list_elem_of_fmap. eauto.
  - assert (User.id u = id) as Hu by (destruct (decide (User.id u = id)); tauto).
    rewrite decide_True by done. rewrite <- Hu in *.
    rewrite update_row_absent by done. rewrite delete_row_absent in Hfree by done.
    apply NoDup_cons. split; [|done]. simpl. by apply email_not_taken.
Qed.

Lemma route_distinct_emails r s :
  primary_keys s → distinct_emails s →
  distinct_emails (route collate r s).2.
Proof.
  intros ([Hids _] & _) Hs. unfold distinct_emails in *.
  destruct r; simpl; try done.
  - unfold create_user, insert_user. destruct json as [d|]; [|done].
    destruct (email_taken _ _ _) eqn:Hfree; [done|]. simpl.
    rewrite fmap_app. apply NoDup_app. split; [done|].
    split; [|apply NoDup_singleton].
    intros e He He'. apply list_elem_of_singleton in He'. simpl in He'. subst e.
    by apply email_not_taken in Hfree.
  - unfold update_user, update_user_row. destruct (get _ _ _); [|done].
    destruct json as [d|]; [|done].
    destruct (email_taken _ _ _) eqn:Hfree; [done|]. simpl.
    by apply update_row_distinct_emails.
  - unfold delete_user, delete_user_row. destruct (get _ _ _); [|done].
    destruct (bool_decide _); [done|]. simpl.
    apply (sublist_NoDup _ (User.email <$> users s)); [done|].
    apply fmap_sublist, sublist_filter.
  - unfold create_product. by destruct json.
  - unfold update_product. destruct (get _ _ _); [|done]. by destruct json.
  - unfold delete_product. by destruct (get _ _ _).
  - unfold new_order, insert_order. destruct json; [|done].
    by destruct (get _ _ _).
  - unfold add_product. destruct (get Order.id _ _); [|done].
    destruct (get Product.id _ _); [|done]. destruct (product_in _ _); [done|].
    unfold insert_order_product. destruct (bool_decide _); [done|].
    destruct (get Order.id _ _); [|done]. by destruct (get Product.id _ _).
  - unfold remove_product. destruct (get Order.id _ _); [|done].
    destruct (negb _); [done|]. by destruct (get Product.id _ _).
  - unfold get_order_products. by destruct (get _ _ _).
Qed.

Lemma serve_distinct_emails requests s :
  primary_keys s → distinct_emails s →
  distinct_emails (serve collate s requests).
Proof.
  revert s. induction requests as [|r requests IH]; intros s Hk Hs; [done|].
  simpl. apply IH; [by apply route_primary_keys | by apply route_distinct_emails].
Qed.

End emails.

(** X4. Whatever requests are served from the empty store, no two users
    of the store have the same email, provided the unique index identifies
    equal strings: POST /users and PUT /users/<id> cannot produce a second
    holder of an email. *)
Theorem reachable_distinct_emails (collate : string → string → bool)
    (requests : list request) :
  (∀ e, collate e e = true) →
  NoDup (User.email <$> users (serve collate empty requests)).
Proof.
  intros Hrefl. apply (serve_distinct_emails collate Hrefl requests empty).
  - apply primary_keys_empty.
  - constructor.
Qed.

Lemma reachable_distinct_emails_witness :
  NoDup (User.email <$> users (serve String.eqb empty
    [POST_users (Loaded ann); POST_users (Loaded bob);
     PUT_user 2 (Loaded bob_as_ann); PUT_user 2 (Loaded bob_moves)])).
Proof.
  apply (reachable_distinct_emails String.eqb), String.eqb_refl.
Defined.

(** ** Reachable stores, continued *)

(** X5. In every store reached from the empty one, the ids of each table
    are pairwise distinct, and every user and product of the store is what
    GET /users/<id> and GET /products/<id> answer for its id. *)
Theorem reachable_rows_fetched (collate : string → string → bool)
    (requests : list request) :
  let s := serve collate empty requests in
  NoDup (User.id <$> users s) ∧
  NoDup (Product.id <$> products s) ∧
  NoDup (Order.id <$> orders s) ∧
  (∀ u, u ∈ users s →
     get_user (User.id u) s = (Reply (user_json (Some u)) 200, s)) ∧
  (∀ p, p ∈ products s →
     get_product (Product.id p) s = (Reply (product_json (Some p)) 200, s)).
Proof.
  intros s. destruct (reachable_primary_keys collate requests) as (Hu & Hp & Ho).
  fold s in Hu, Hp, Ho.
  split; [apply Hu|]. split; [apply Hp|]. split; [apply Ho|]. split.
  - intros u Hin. unfold get_user. by erewrite get_elem_of.
  - intros p Hin. unfold get_product. by erewrite get_elem_of.
Qed.

Lemma reachable_rows_fetched_witness :
  get_user 2 shop =
    (Reply (user_json (Some (User.mk 2 "Bob" "2 High St" "bob@example.com"))) 200, shop).
Proof.
  destruct (reachable_rows_fetched String.eqb
    [ POST_users (Loaded ann); POST_users (Loaded bob);
      POST_products (Loaded pen); POST_products (Loaded ink);
      POST_orders (Loaded (OrderData.mk None (Date 2024 1 2) 1));
      POST_orders (Loaded (OrderData.mk None (Date 2024 1 3) 2));
      PUT_add_product 1 1; PUT_add_product 2 1 ]) as (_ & _ & _ & H & _).
  apply (H (User.mk 2 "Bob" "2 High St" "bob@example.com")).
  vm_compute. right. left.
Defined.

(** X6. A request that is not answered with 200 or 201 changes nothing:
    after a 400, a 404 or an escaping exception the store is the one
    before the request, on every route. *)
Theorem failed_request_changes_nothing collate r s :
  ¬ succeeded (route collate r s).1 → (route collate r s).2 = s.
Proof.
  destruct r; simpl; try done.
  - unfold create_user. destruct json; [|done].
    destruct (insert_user _ _ _) as [[u s']|]; [|done]. simpl. tauto.
  - unfold update_user. destruct (get _ _ _); [|done]. destruct json; [|done].
    destruct (update_user_row _ _ _ _); [|done]. simpl. tauto.
  - unfold delete_user. destruct (get _ _ _); [|done].
    destruct (delete_user_row _ _); [|done]. simpl. tauto.
  - unfold create_product. destruct json; [|done]. simpl. tauto.
  - unfold update_product. destruct (get _ _ _); [|done]. destruct json; [|done].
    simpl. tauto.
  - unfold delete_product. destruct (get _ _ _); [|done]. simpl. tauto.
  - unfold new_order. destruct json; [|done].
    destruct (insert_order _ _) as [[o s']|]; [|done]. simpl. tauto.
  - unfold add_product. destruct (get Order.id _ _); [|done].
    destruct (get Product.id _ _); [|done]. destruct (product_in _ _); [done|].
    destruct (insert_order_product _ _ _); [|done]. simpl. tauto.
  - unfold remove_product. destruct (get Order.id _ _); [|done].
    destruct (negb _); [done|]. destruct (get Product.id _ _); [|done].
    simpl. tauto.
  - unfold get_order_products. by destruct (get _ _ _).
Qed.

Lemma failed_request_changes_nothing_witness :
  ¬ succeeded (route String.eqb (DELETE_user 1) shop).1 ∧
  (route String.eqb (DELETE_user 1) shop).2 = shop.
Proof.
  assert (¬ succeeded (route String.eqb (DELETE_user 1) shop).1) as H.
  { vm_compute. tauto. }
  split; [exact H|]. apply (failed_request_changes_nothing String.eqb _ _ H).
Defined.

(** No route deletes or rewrites an order: the order table only grows at
    its end. *)
Lemma route_orders_prefix collate r s :
  orders s `prefix_of` orders (route collate r s).2.
Proof.
  destruct r; simpl; try done.
  - unfold create_user, insert_user. destruct json; [|done].
    by destruct (email_taken _ _ _).
  - unfold update_user, update_user_row. destruct (get _ _ _); [|done].
    destruct json; [|done]. by destruct (email_taken _ _ _).
  - unfold delete_user, delete_user_row. destruct (get _ _ _); [|done].
    by destruct (bool_decide _).
  - unfold create_product. by destruct json.
  - unfold update_product. destruct (get _ _ _); [|done]. by destruct json.
  - unfold delete_product. by destruct (get _ _ _).
  - unfold new_order, insert_order. destruct json; [|done].
    destruct (get _ _ _); [|done]. simpl. by apply prefix_app_r.
  - unfold add_product. destruct (get Order.id _ _); [|done].
    destruct (get Product.id _ _); [|done]. destruct (product_in _ _); [done|].
    unfold insert_order_product. destruct (bool_decide _); [done|].
    destruct (get Order.id _ _); [|done]. by destruct (get Product.id _ _).
  - unfold remove_product. destruct (get Order.id _ _); [|done].
    destruct (negb _); [done|]. by destruct (get Product.id _ _).
  - unfold get_order_products. by destruct (get _ _ _).
Qed.

Lemma serve_orders_prefix collate requests s :
  orders s `prefix_of` orders (serve collate s requests).
Proof.
  revert s. induction requests as [|r requests IH]; intros s; [done|].
  simpl. etrans; [apply (route_orders_prefix collate r)|apply IH].
Qed.

(** X7. Orders are permanent, and so are their owners: an order present
    in a reachable store is still there, unaltered, after any further
    requests, and the user it references still exists (DELETE /users/<id>
    is refused for a user who owns an order). *)
Theorem order_and_owner_stay (collate : string → string → bool)
    (requests more : list request) o :
  let s := serve collate empty requests in
  let s' := serve collate s more in
  o ∈ orders s →
  o ∈ orders s' ∧ ∃ u, u ∈ users s' ∧ User.id u = Order.user_id o.
Proof.
  intros s s' Ho.
  assert (o ∈ orders s') as Ho'.
  { eapply elem_of_prefix; [exact Ho|]. apply serve_orders_prefix. }
  split; [done|].
  assert (consistent s') as (Hu & _).
  { apply serve_consistent, serve_consistent, consistent_empty. }
  by apply Hu.
Qed.

Lemma order_and_owner_stay_witness :
  let s' := serve String.eqb shop [DELETE_user 1; DELETE_product 1; DELETE_user 1] in
  Order.mk 1 (Date 2024 1 2) 1 ∈ orders s' ∧
  ∃ u, u ∈ users s' ∧ User.id u = 1.
Proof.
  apply (order_and_owner_stay String.eqb
    [ POST_users (Loaded ann); POST_users (Loaded bob);
      POST_products (Loaded pen); POST_products (Loaded ink);
      POST_orders (Loaded (OrderData.mk None (Date 2024 1 2) 1));
      POST_orders (Loaded (OrderData.mk None (Date 2024 1 3) 2));
      PUT_add_product 1 1; PUT_add_product 2 1 ]
    [DELETE_user 1; DELETE_product 1; DELETE_user 1]
    (Order.mk 1 (Date 2024 1 2) 1)).
  vm_compute. left.
Defined.

(** ** Deleting *)

(** X8. DELETE /users/<id>: an unknown id is answered 404 with the store
    unchanged; a user who owns an order cannot be deleted (the error
    escapes, the store is unchanged); otherwise the answer is 200, the
    user is gone, every other user is kept and no other table changes. *)
Theorem delete_user_cases id s :
  (get User.id id (users s) = None →
   delete_user id s = (Reply (message_json User_not_found) 404, s)) ∧
  (is_Some (get User.id id (users s)) →
   (∃ o, o ∈ orders s ∧ Order.user_id o = id) →
   delete_user id s = (Raise DatabaseError, s)) ∧
  (is_Some (get User.id id (users s)) →
   (∀ o, o ∈ orders s → Order.user_id o ≠ id) →
   ∃ s', delete_user id s =
           (Reply (message_json (successfully_deleted_user id)) 200, s') ∧
     s' = with_users s (users s') ∧
     (get_user id s').1 = Reply (user_json None) 200 ∧
     (∀ k, k ≠ id → (get_user k s').1 = (get_user k s).1) ∧
     (∀ u, u ∈ users s' ↔ u ∈ users s ∧ User.id u ≠ id)).
Proof.
  unfold delete_user, delete_user_row. split; [|split].
  - by intros ->.
  - intros [u ->] Hex. rewrite bool_decide_eq_true_2; [done|].
    by apply Exists_exists.
  - intros [u ->] Hall. rewrite bool_decide_eq_false_2.
    + eexists. split; [reflexivity|]. simpl. split; [done|].
      unfold get_user. simpl. split; [by rewrite get_delete_row|].
      split.
      * intros k Hk. by rewrite get_delete_row_other.
      * intros q. apply elem_of_delete_row.
    + intros Hex. apply Exists_exists in Hex. destruct Hex as (o & Ho & Hid).
      by apply (Hall o).
Qed.

Lemma delete_user_cases_witness :
  delete_user 1 shop = (Raise DatabaseError, shop).
Proof.
  destruct (delete_user_cases 1 shop) as (_ & H & _). apply H.
  - vm_compute. eauto.
  - exists (Order.mk 1 (Date 2024 1 2) 1). split; [|reflexivity].
    vm_compute. left.
Defined.

(** X9. DELETE /products/<id>: an unknown id is answered 404 with the
    store unchanged; otherwise the answer is 200, the product is gone
    together with its association rows in every order, and every other
    product and every other association row is kept. Afterwards no order
    lists the product and adding it to an order is answered 404. *)
Theorem delete_product_cases id s :
  (get Product.id id (products s) = None →
   delete_product id s = (Reply (message_json Product_not_found) 404, s)) ∧
  (is_Some (get Product.id id (products s)) →
   ∃ s', delete_product id s =
           (Reply (message_json (successfully_deleted_product id)) 200, s') ∧
     users s' = users s ∧ orders s' = orders s ∧
     (get_product id s').1 = Reply (product_json None) 200 ∧
     (∀ k, k ≠ id → (get_product k s').1 = (get_product k s).1) ∧
     (∀ p, p ∈ products s' ↔ p ∈ products s ∧ Product.id p ≠ id) ∧
     (∀ o p, (o, p) ∈ order_product s' ↔ (o, p) ∈ order_product s ∧ p ≠ id) ∧
     (∀ order p, p ∈ Order_product s' order → Product.id p ≠ id) ∧
     (∀ order_id, NotFound (add_product order_id id s').1)).
Proof.
  unfold delete_product. split.
  - by intros ->.
  - intros [q ->]. eexists. split; [reflexivity|]. simpl.
    split; [done|]. split; [done|]. unfold get_product. simpl.
    split; [by rewrite get_delete_row|]. split.
    { intros k Hk. by rewrite get_delete_row_other. }
    split. { intros p. apply elem_of_delete_row. }
    split. { intros o p. rewrite list_elem_of_filter. simpl. tauto. }
    split.
    + intros order p Hp. unfold Order_product in Hp.
      apply list_elem_of_bind in Hp. destruct Hp as (row & Hp & _).
      case_decide; [|by apply not_elem_of_nil in Hp].
      apply list_elem_of_filter in Hp. destruct Hp as [_ Hp]. simpl in Hp.
      apply elem_of_delete_row in Hp. tauto.
    + intros order_id. unfold add_product. simpl. rewrite get_delete_row.
      by destruct (get Order.id _ _).
Qed.

Lemma delete_product_cases_witness :
  ∃ s', delete_product 1 shop =
          (Reply (message_json (successfully_deleted_product 1)) 200, s') ∧
    order_product s' = [] ∧ Product.id <$> products s' = [2].
Proof.
  destruct (delete_product_cases 1 shop) as (_ & H).
  destruct H as (s' & E & _); [vm_compute; eauto|].
  exists s'. split; [exact E|].
  vm_compute in E. injection E as <-. by vm_compute.
Defined.

(** ** Updating a product *)

(** X10. PUT /products/<id>: an unknown id is answered 404 whatever the
    body, unchanged store; a body the schema refuses is answered 400,
    unchanged store; a loaded body replaces exactly the name and price of
    that product, which keeps its id, and leaves every other product and
    every other table as they were. *)
Theorem update_product_frame id s :
  (get Product.id id (products s) = None →
   ∀ json, update_product id json s =
             (Reply (message_json Invalid_product_id) 404, s)) ∧
  (is_Some (get Product.id id (products s)) →
   (∀ messages, update_product id (ValidationError messages) s =
                  (Reply (messages_json messages) 400, s)) ∧
   (∀ d, replaces_name_price id d s (update_product id (Loaded d) s))).
Proof.
  unfold update_product. split.
  - by intros ->.
  - intros [p Hp]. rewrite Hp. split; [done|].
    intros d. exists p. simpl. split; [done|]. split; [done|]. split; [done|].
    unfold update_row. split; [by rewrite length_fmap|].
    intros i q Hi. rewrite list_lookup_fmap, Hi. simpl.
    eexists. split; [reflexivity|]. by case_decide.
Qed.

Lemma update_product_frame_witness :
  replaces_name_price 1 ink shop (update_product 1 (Loaded ink) shop).
Proof.
  destruct (update_product_frame 1 shop) as (_ & H).
  destruct H as (_ & H); [vm_compute; eauto|]. apply H.
Defined.

(** ** The products of an order *)

Lemma elem_of_Order_product s order p :
  p ∈ Order_product s order ↔
  p ∈ products s ∧ (Order.id order, Product.id p) ∈ order_product s.
Proof.
  unfold Order_product. rewrite list_elem_of_bind. split.
  - intros ([o q] & Hp & Hrow). simpl in Hp.
    case_decide as Ho; [|by apply not_elem_of_nil in Hp].
    apply list_elem_of_filter in Hp. destruct Hp as [Hq Hp].
    simpl in Ho. subst o. by rewrite Hq.
  - intros [Hp Hrow]. exists (Order.id order, Product.id p). split; [|done].
    simpl. rewrite decide_True by done. by apply list_elem_of_filter.
Qed.

Lemma NoDup_Order_product s order :
  NoDup (Product.id <$> products s) → NoDup (order_product s) →
  NoDup (Order_product s order).
Proof.
  intros Hp Hrows. unfold Order_product. apply NoDup_bind; [| |done].
  - intros [o1 p1] [o2 p2] q _ _ H1 H2. simpl in H1, H2.
    destruct (decide (o1 = Order.id order)) as [->|];
      [|by apply not_elem_of_nil in H1].
    destruct (decide (o2 = Order.id order)) as [->|];
      [|by apply not_elem_of_nil in H2].
    apply list_elem_of_filter in H1, H2.
    destruct H1 as [<- _], H2 as [<- _]. done.
  - intros row _. case_decide; [|constructor].
    apply NoDup_filter. by apply NoDup_fmap_1 in Hp.
Qed.

Lemma bind_all_nil {A B} (f : A → list B) (l : list A) :
  (∀ x, x ∈ l → f x = []) → l ≫= f = [].
Proof.
  induction l as [|x l IH]; [done|]. intros H. rewrite bind_cons.
  rewrite (H x) by left. apply IH. intros y Hy. apply H. by right.
Qed.

(** X11. GET /orders/<order_id>/products for an existing order answers
    200 with exactly the products of the store that an association row
    links to that order; when product ids and association pairs are
    distinct, as they are in every reachable store, no product is listed
    twice. *)
Theorem get_order_products_exact order_id s order :
  get Order.id order_id (orders s) = Some order →
  ∃ l, get_order_products order_id s = (Reply (products_json l) 200, s) ∧
    (∀ p, p ∈ l ↔ p ∈ products s ∧ (order_id, Product.id p) ∈ order_product s) ∧
    (NoDup (Product.id <$> products s) → NoDup (order_product s) → NoDup l).
Proof.
  intros Ho. unfold get_order_products. rewrite Ho.
  apply get_Some in Ho. destruct Ho as [_ <-].
  eexists. split; [reflexivity|]. split.
  - intros p. apply elem_of_Order_product.
  - apply NoDup_Order_product.
Qed.

Lemma get_order_products_exact_witness :
  ∃ l, get_order_products 2 shop = (Reply (products_json l) 200, shop) ∧
    (∀ p, p ∈ l ↔ p ∈ products shop ∧ (2, Product.id p) ∈ order_product shop) ∧
    (NoDup (Product.id <$> products shop) → NoDup (order_product shop) → NoDup l).
Proof.
  apply (get_order_products_exact 2 shop (Order.mk 2 (Date 2024 1 3) 2)).
  reflexivity.
Defined.

(** X12. POST /orders for an existing user, on a consistent store with
    distinct keys: the answer is 201 with an order of the supplied user
    and date; GET /orders/user/<user_id> then lists that order, and GET
    /orders/<id>/products for the new order answers the empty list. *)
Theorem new_order_then_listed d s :
  consistent s → primary_keys s →
  is_Some (get User.id (OrderData.user_id d) (users s)) →
  ∃ o s', new_order (Loaded d) s = (Reply (order_json o) 201, s') ∧
    Order.user_id o = OrderData.user_id d ∧
    Order.order_date o = OrderData.order_date d ∧
    (∃ l, get_user_orders (OrderData.user_id d) s' =
            (Reply (orders_json l) 200, s') ∧ o ∈ l) ∧
    get_order_products (Order.id o) s' = (Reply (products_json []) 200, s').
Proof.
  intros (_ & Ha & _) (_ & _ & Hk) [u Hu]. unfold new_order, insert_order.
  rewrite Hu. eexists _, _. split; [reflexivity|]. simpl.
  split; [done|]. split; [done|]. split.
  - eexists. unfold get_user_orders. split; [reflexivity|]. simpl.
    apply list_elem_of_filter. split; [done|]. apply elem_of_app. right. left.
  - unfold get_order_products. simpl. erewrite get_insert_fresh; [|done..].
    do 2 f_equal. f_equal. unfold Order_product. simpl.
    apply bind_all_nil. intros [o p] Hrow. simpl.
    rewrite decide_False; [done|]. intros ->.
    destruct (Ha _ _ Hrow) as ((q & Hq & Hid) & _).
    destruct Hk as [_ Hlt]. specialize (Hlt q Hq). lia.
Qed.

Lemma new_order_then_listed_witness :
  ∃ o s', new_order (Loaded (OrderData.mk None (Date 2024 2 1) 2)) shop =
            (Reply (order_json o) 201, s') ∧
    Order.user_id o = 2 ∧
    Order.order_date o = Date 2024 2 1 ∧
    (∃ l, get_user_orders 2 s' = (Reply (orders_json l) 200, s') ∧ o ∈ l) ∧
    get_order_products (Order.id o) s' = (Reply (products_json []) 200, s').
Proof.
  apply (new_order_then_listed (OrderData.mk None (Date 2024 2 1) 2) shop).
  - apply serve_consistent, consistent_empty.
  - apply serve_primary_keys, primary_keys_empty.
  - vm_compute. eauto.
Defined.



(** ** Removing a product from an order, continued *)

(** X14. DELETE /orders/<order_id>/remove_product/<product_id> on an
    existing order answers 404 with the store unchanged when the product
    does not exist or is not associated with the order. *)
Theorem remove_product_not_in_order order_id product_id s order :
  get Order.id order_id (orders s) = Some order →
  get Product.id product_id (products s) = None ∨
  (order_id, product_id) ∉ order_product s →
  remove_product order_id product_id s =
    (Reply (message_json Product_not_found_in_order) 404, s).
Proof.
  intros Ho H. unfold remove_product. rewrite Ho.
  apply get_Some in Ho. destruct Ho as [_ Hoid].
  destruct (get Product.id _ _) as [p|] eqn:Hp; [|done].
  destruct H as [?|Hnew]; [done|].
  apply get_Some in Hp. destruct Hp as [Hp Hpid].
  destruct (product_in _ _) eqn:E; [|done].
  apply (product_in_Order_product s order p Hp) in E.
  rewrite Hoid, Hpid in E. by destruct Hnew.
Qed.

Lemma remove_product_not_in_order_witness :
  remove_product 1 2 shop =
    (Reply (message_json Product_not_found_in_order) 404, shop).
Proof.
  apply (remove_product_not_in_order 1 2 shop (Order.mk 1 (Date 2024 1 2) 1)).
  - reflexivity.
  - right. intros H. apply (bool_decide_pack _) in H. vm_compute in H. exact H.
Defined.

(** X15. A successful remove-product leaves the store exactly as DELETE
    /products/<product_id> leaves it: for a product associated with the
    order both handlers answer 200 and reach the same store. *)
Theorem remove_product_as_delete_product order_id product_id s order product :
  get Order.id order_id (orders s) = Some order →
  get Product.id product_id (products s) = Some product →
  (order_id, product_id) ∈ order_product s →
  remove_product order_id product_id s =
    (Reply (message_json (successfully_deleted product)) 200,
     (delete_product product_id s).2) ∧
  succeeded (delete_product product_id s).1.
Proof.
  intros Ho Hp Hin. unfold remove_product, delete_product. rewrite Ho, Hp.
  apply get_Some in Ho, Hp. destruct Ho as [_ Hoid], Hp as [Hp Hpid].
  rewrite <- Hoid, <- Hpid in Hin.
  apply (product_in_Order_product s order product Hp) in Hin.
  rewrite Hin. simpl. by rewrite Hpid.
Qed.

Lemma remove_product_as_delete_product_witness :
  remove_product 2 1 shop =
    (Reply (message_json (successfully_deleted (Product.mk 1 "pen" (3 # 2)))) 200,
     (delete_product 1 shop).2) ∧
  succeeded (delete_product 1 shop).1.
Proof.
  apply (remove_product_as_delete_product 2 1 shop (Order.mk 2 (Date 2024 1 3) 2)).
  - reflexivity.
  - reflexivity.
  - vm_compute. right. left.
Defined.

(** ** Updating and fetching *)

(** X16. What a successful PUT answers is what the next GET of the same
    id answers: for users (when the update is not refused) and for
    products, the entity returned with status 200 by the update is the
    one GET /users/<id>, respectively GET /products/<id>, returns
    afterwards. *)
Theorem update_then_get collate id s :
  (∀ d b s', update_user collate id (Loaded d) s = (Reply b 200, s') →
     ∃ user, get User.id id (users s) = Some user ∧
       b = user_json (Some (set_name_email d user)) ∧
       get_user id s' = (Reply b 200, s')) ∧
  (∀ d product, get Product.id id (products s) = Some product →
     let r := update_product id (Loaded d) s in
     r.1 = Reply (product_json (Some (set_name_price d product))) 200 ∧
     get_product id r.2 = (r.1, r.2)).
Proof.
  split.
  - intros d b s'. unfold update_user, update_user_row.
    destruct (get User.id id (users s)) as [user|] eqn:Hget; [|done].
    destruct (email_taken _ _ _); [done|]. intros [= <- <-].
    exists user. split; [done|]. split; [done|].
    unfold get_user. simpl. rewrite get_update_row by done. rewrite Hget. simpl.
    apply get_Some in Hget. destruct Hget as [_ Hid]. by rewrite decide_True.
  - intros d product Hget. unfold update_product. rewrite Hget. simpl.
    split; [done|]. unfold get_product. simpl.
    rewrite get_update_row by done. rewrite Hget. simpl.
    apply get_Some in Hget. destruct Hget as [_ Hid]. by rewrite decide_True.
Qed.

Lemma update_then_get_witness :
  ∃ user, get User.id 2 (users shop) = Some user ∧
    get_user 2 (update_user String.eqb 2 (Loaded bob_moves) shop).2 =
      (Reply (user_json (Some (set_name_email bob_moves user))) 200,
       (update_user String.eqb 2 (Loaded bob_moves) shop).2).
Proof.
  destruct (update_then_get String.eqb 2 shop) as [H _].
  destruct (H bob_moves
              (user_json (Some (User.mk 2 "Robert" "2 High St" "robert@example.com")))
              (update_user String.eqb 2 (Loaded bob_moves) shop).2 eq_refl)
    as (user & Hget & Hb & Hr).
  exists user. split; [exact Hget|]. rewrite Hr. by rewrite Hb.
Defined.
